(** * MLTrader: the sentiment-driven order decision of [tradingbot.py]

    A shallow embedding of the strategy class [MLTrader] and the properties
    of its position sizing and of its trading iteration.

    Modelling choices.
    - Numbers.  Cash, prices, probabilities and the risk fraction are Python
      floats, that is IEEE 754 binary64 numbers ([spec_float] at precision
      53 and maximal exponent 1024): products and quotients are rounded to
      the nearest float, ties to even, and may be infinite or NaN.  Python's
      [/] raises [ZeroDivisionError] on a zero divisor; [round] raises
      [OverflowError] on an infinity and [ValueError] on a NaN.
    - Strings.  Sentiment labels, order sides and [last_trade] are the
      strings of the source, compared with [==] as the source does.
    - Effects.  A method runs against the collaborators' readings of one
      iteration ([World]), reads and updates the strategy object ([self])
      and emits broker calls ([sell_all], [submit_order]) in order; it
      returns or raises.  This is the monad [M].
    - Dates are day numbers; [strftime] formatting is not modelled. *)

From Stdlib Require Import ZArith QArith Qround Qabs String List Bool Lia Lqa.
From Stdlib Require Import SpecFloat.
Import ListNotations.

Local Open Scope string_scope.

(** ** Python floats *)

Definition float : Type := spec_float.

Definition prec : Z := 53.
Definition emax : Z := 1024.

(** The float nearest to an integer. *)
Definition float_of_Z (z : Z) : float := binary_normalize prec emax z 0 false.

(** The float of the decimal literal [n / 10^k], for [n] and [10^k] that
    are floats themselves: their correctly rounded quotient. *)
Definition decimal (n k : Z) : float :=
  SFdiv prec emax (float_of_Z n) (float_of_Z (10 ^ k)).

(** The rational number that a finite float is. *)
Definition float_value (f : float) : Q :=
  match f with
  | S754_finite s m e =>
      match e with
      | Zneg p => Qmake (cond_Zopp s (Zpos m)) (2 ^ p)
      | _ => inject_Z (cond_Zopp s (Zpos m) * 2 ^ e)
      end
  | _ => 0
  end.

Definition is_finite (f : float) : bool :=
  match f with
  | S754_zero _ | S754_finite _ _ _ => true
  | S754_infinity _ | S754_nan => false
  end.

Definition is_nan (f : float) : bool :=
  match f with
  | S754_nan => true
  | _ => false
  end.

Definition is_zero (f : float) : bool :=
  match f with
  | S754_zero _ => true
  | _ => false
  end.

(** A finite float below zero. *)
Definition is_negative (f : float) : bool :=
  match f with
  | S754_finite true _ _ => true
  | _ => false
  end.

(** A finite float above zero. *)
Definition is_positive (f : float) : bool :=
  match f with
  | S754_finite false _ _ => true
  | _ => false
  end.

(** [a < b] and [a <= b] hold. *)
Definition float_lt (a b : float) : Prop := SFltb a b = true.
Definition float_le (a b : float) : Prop := SFleb a b = true.

(** ** Python primitives *)

Inductive Exn : Type :=
| ZeroDivisionError
| OverflowError
| ValueError.

(** [a > b] *)
Definition py_gt (a b : float) : bool := SFltb b a.

(** [a * b] *)
Definition py_mul (a b : float) : float := SFmul prec emax a b.

(** [a / b] *)
Definition py_div (a b : float) : Exn + float :=
  if is_zero b then inl ZeroDivisionError else inr (SFdiv prec emax a b).

(** The integer nearest to a rational, a tie going to the even neighbour. *)
Definition nearest_even (x : Q) : Z :=
  let f := Qfloor x in
  match (x - inject_Z f ?= 1 # 2)%Q with
  | Lt => f
  | Gt => (f + 1)%Z
  | Eq => if Z.even f then f else (f + 1)%Z
  end.

(** [round(x)] with one argument: the integer nearest to the float, a tie
    going to the even neighbour; no integer is near an infinity or a NaN. *)
Definition py_round (x : float) : Exn + Z :=
  match x with
  | S754_nan => inl ValueError
  | S754_infinity _ => inl OverflowError
  | _ => inr (nearest_even (float_value x))
  end.

(** [o == s] for an attribute that holds [None] or a string. *)
Definition py_eq (o : option string) (s : string) : bool :=
  match o with
  | Some t => String.eqb t s
  | None => false
  end.

(** ** Data *)

(** The attributes of [MLTrader] ([api] is a handle on the news service and
    carries no data). *)
Record MLTrader : Type := mkMLTrader {
  symbol : string;
  sleeptime : string;
  last_trade : option string;
  cash_at_risk : float
}.

Record NewsItem : Type := mkNewsItem {
  headline : string
}.

(** What the framework, the news service and the sentiment model answer
    during one iteration. *)
Record World : Type := mkWorld {
  get_cash : float;
  get_last_price : string -> float;
  get_datetime : Z;
  get_news : string -> Z -> Z -> list NewsItem;
  estimate_sentiment : list string -> float * string
}.

(** The object built by [create_order]. *)
Record Order : Type := mkOrder {
  asset : string;
  quantity : Z;
  side : string;
  type : string;
  take_profit_price : float;
  stop_loss_price : float
}.

(** Calls made to the broker. *)
Inductive Event : Type :=
| SellAll
| SubmitOrder (o : Order).

(** ** The method monad *)

Record Outcome (A : Type) : Type := mkOutcome {
  result : Exn + A;
  self_after : MLTrader;
  emitted : list Event
}.
Arguments mkOutcome {A} _ _ _.
Arguments result {A} _.
Arguments self_after {A} _.
Arguments emitted {A} _.

Definition M (A : Type) : Type := World -> MLTrader -> Outcome A.

Definition ret {A : Type} (a : A) : M A :=
  fun _ self => mkOutcome (inr a) self [].

Definition raise {A : Type} (e : Exn) : M A :=
  fun _ self => mkOutcome (inl e) self [].

Definition bind {A B : Type} (m : M A) (k : A -> M B) : M B :=
  fun w self =>
    let o := m w self in
    match result o with
    | inl e => mkOutcome (inl e) (self_after o) (emitted o)
    | inr a =>
        let o' := k a w (self_after o) in
        mkOutcome (result o') (self_after o') (emitted o ++ emitted o')
    end.

Declare Scope py_scope.
Delimit Scope py_scope with py.
Notation "x <- c ;; k" := (bind c (fun x => k))
  (at level 61, c at next level, right associativity) : py_scope.
Notation "' pat <- c ;; k" := (bind c (fun x => match x with pat => k end))
  (at level 61, pat pattern, c at next level, right associativity) : py_scope.
Notation "c ;; k" := (bind c (fun _ => k))
  (at level 61, right associativity) : py_scope.
Local Open Scope py_scope.

Definition lift {A : Type} (r : Exn + A) : M A :=
  match r with
  | inl e => raise e
  | inr a => ret a
  end.

Definition ask : M World :=
  fun w self => mkOutcome (inr w) self [].

Definition get_self : M MLTrader :=
  fun _ self => mkOutcome (inr self) self [].

(** [self] with [last_trade] assigned. *)
Definition with_last_trade (self : MLTrader) (v : option string) : MLTrader :=
  mkMLTrader (symbol self) (sleeptime self) v (cash_at_risk self).

(** [self.last_trade = v] *)
Definition set_last_trade (v : option string) : M unit :=
  fun _ self => mkOutcome (inr tt) (with_last_trade self v) [].

Definition sell_all : M unit :=
  fun _ self => mkOutcome (inr tt) self [SellAll].

Definition submit_order (o : Order) : M unit :=
  fun _ self => mkOutcome (inr tt) self [SubmitOrder o].

Definition create_order (sym : string) (qty : Z) (sd ty : string)
    (tp sl : float) : Order :=
  mkOrder sym qty sd ty tp sl.

(** ** The methods of [MLTrader] *)

Definition initialize (sym : string) (car : float) : MLTrader :=
  mkMLTrader sym "24h" None car.

Definition get_dates : M (Z * Z) :=
  w <- ask ;;
  let today := get_datetime w in
  let three_days_prior := (today - 3)%Z in
  ret (today, three_days_prior).

Definition position_sizing : M (float * float * Z) :=
  w <- ask ;;
  self <- get_self ;;
  let cash := get_cash w in
  let last_price := get_last_price w (symbol self) in
  ratio <- lift (py_div (py_mul cash (cash_at_risk self)) last_price) ;;
  quantity <- lift (py_round ratio) ;;
  ret (cash, last_price, quantity).

Definition get_sentiment : M (float * string) :=
  ' (today, three_days_prior) <- get_dates ;;
  w <- ask ;;
  self <- get_self ;;
  let news := get_news w (symbol self) three_days_prior today in
  let news := map headline news in
  let '(probability, sentiment) := estimate_sentiment w news in
  ret (probability, sentiment).

Definition on_trading_iteration : M unit :=
  ' (cash, last_price, quantity) <- position_sizing ;;
  ' (probability, sentiment) <- get_sentiment ;;
  if py_gt cash last_price then
    if (sentiment =? "positive") && py_gt probability (decimal 999 3) then
      self <- get_self ;;
      (if py_eq (last_trade self) "sell" then sell_all else ret tt) ;;
      let order :=
        create_order (symbol self) quantity "buy" "bracket"
          (py_mul last_price (decimal 120 2))
          (py_mul last_price (decimal 95 2)) in
      submit_order order ;;
      set_last_trade (Some "buy")
    else ret tt
  else if (sentiment =? "negative") && py_gt probability (decimal 999 3) then
    self <- get_self ;;
    if py_eq (last_trade self) "buy" then
      sell_all ;;
      let order :=
        create_order (symbol self) quantity "sell" "bracket"
          (py_mul last_price (decimal 8 1))
          (py_mul last_price (decimal 105 2)) in
      submit_order order ;;
      set_last_trade (Some "buy")
    else ret tt
  else ret tt.

(** ** Derived observations *)

(** The orders among the broker calls, in order of submission. *)
Fixpoint orders (evs : list Event) : list Order :=
  match evs with
  | [] => []
  | SubmitOrder o :: evs' => o :: orders evs'
  | SellAll :: evs' => orders evs'
  end.

(** The number of liquidations among the broker calls. *)
Fixpoint liquidations (evs : list Event) : nat :=
  match evs with
  | [] => 0
  | SellAll :: evs' => S (liquidations evs')
  | SubmitOrder _ :: evs' => liquidations evs'
  end.

(** The framework calls [on_trading_iteration] once per bar; an iteration
    that raises leaves the object as it was at the raise. *)
Fixpoint run_iterations (ws : list World) (self : MLTrader) : MLTrader :=
  match ws with
  | [] => self
  | w :: ws' => run_iterations ws' (self_after (on_trading_iteration w self))
  end.

(** A world in which only cash, price and the sentiment reading matter. *)
Definition world_of (cash price probability : float) (sentiment : string)
    : World :=
  mkWorld cash (fun _ => price) 0 (fun _ _ _ => [])
    (fun _ => (probability, sentiment)).

Definition sentiment_of (w : World) (self : MLTrader) : float * string :=
  estimate_sentiment w
    (map headline
       (get_news w (symbol self) (get_datetime w - 3)%Z (get_datetime w))).

(** The float that [position_sizing] hands to [round] when the price is
    not zero: the rounded quotient of the rounded product. *)
Definition sizing_ratio (w : World) (self : MLTrader) : float :=
  SFdiv prec emax (py_mul (get_cash w) (cash_at_risk self))
    (get_last_price w (symbol self)).

(** The quantity that [position_sizing] returns, if it returns. *)
Definition sized (w : World) (self : MLTrader) : option Z :=
  match result (position_sizing w self) with
  | inr (_, _, quantity) => Some quantity
  | inl _ => None
  end.

(** The invariant of [last_trade] along a run. *)
Definition never_sold (self : MLTrader) : Prop :=
  last_trade self = None \/ last_trade self = Some "buy".

(** The broker calls of a run, iteration after iteration. *)
Fixpoint run_trace (ws : list World) (self : MLTrader) : list Event :=
  match ws with
  | [] => []
  | w :: ws' =>
      let o := on_trading_iteration w self in
      emitted o ++ run_trace ws' (self_after o)
  end.

(** How many of the orders have the side [s]. *)
Definition count_side (s : string) (os : list Order) : nat :=
  length (filter (fun o => side o =? s) os).

(** ** The specification's rounding

    The integer nearest to [x]; when [x] lies half-way between two integers,
    the even one. *)
Definition round_half_even (x : Q) (q : Z) : Prop :=
  (Qabs (x - inject_Z q) <= 1 # 2)%Q /\
  ((Qabs (x - inject_Z q) == 1 # 2)%Q -> Z.even q = true).

(** * Properties *)

(** ** The literals of the source *)

(** The floats that Python reads for [.999], [1.20], [0.95], [.8], [1.05]
    and for the default [cash_at_risk] [.5]. *)
Lemma literal_floats :
  decimal 999 3 = S754_finite false 8998192055486251 (-53) /\
  decimal 120 2 = S754_finite false 5404319552844595 (-52) /\
  decimal 95 2 = S754_finite false 8556839292003942 (-53) /\
  decimal 8 1 = S754_finite false 7205759403792794 (-53) /\
  decimal 105 2 = S754_finite false 4728779608739021 (-52) /\
  decimal 5 1 = S754_finite false 4503599627370496 (-53).
Proof. vm_compute. repeat split. Qed.

(** ** Rounding to the nearest integer *)

Lemma floor_frac (x : Q) :
  (0 <= x - inject_Z (Qfloor x) < 1)%Q.
Proof.
  pose proof (Qfloor_le x) as Hlo.
  pose proof (Qlt_floor x) as Hhi.
  rewrite inject_Z_plus in Hhi.
  change (inject_Z 1) with 1%Q in Hhi.
  split; lra.
Qed.

Lemma nearest_even_bounds (x : Q) :
  (Qfloor x <= nearest_even x <= Qfloor x + 1)%Z.
Proof.
  unfold nearest_even.
  destruct (x - inject_Z (Qfloor x) ?= 1 # 2)%Q;
    [ destruct (Z.even (Qfloor x)) | | ]; lia.
Qed.

Lemma nearest_even_half_even (x : Q) : round_half_even x (nearest_even x).
Proof.
  unfold round_half_even, nearest_even.
  pose proof (floor_frac x) as [Hlo Hhi].
  set (f := Qfloor x) in *.
  assert (Hs : inject_Z (f + 1) = (inject_Z f + 1)%Q)
    by (rewrite inject_Z_plus; reflexivity).
  destruct (Qcompare_spec (x - inject_Z f) (1 # 2)) as [E | E | E].
  - destruct (Z.even f) eqn:Ev; cbv iota.
    + split; [ | intros _; exact Ev ].
      apply Qabs_Qle_condition. split; lra.
    + split.
      * apply Qabs_Qle_condition. rewrite Hs. split; lra.
      * intros _. rewrite Z.add_1_r, Z.even_succ, <- Z.negb_even, Ev.
        reflexivity.
  - split.
    + apply Qabs_Qle_condition. split; lra.
    + intros Habs. rewrite Qabs_pos in Habs by lra. lra.
  - split.
    + apply Qabs_Qle_condition. rewrite Hs. split; lra.
    + intros Habs. rewrite Hs in Habs.
      rewrite Qabs_neg in Habs by lra. lra.
Qed.

Lemma nearest_even_monotone (x y : Q) :
  (x <= y)%Q -> (nearest_even x <= nearest_even y)%Z.
Proof.
  intros Hxy.
  pose proof (Qfloor_resp_le x y Hxy) as Hf.
  pose proof (nearest_even_bounds x) as Hbx.
  pose proof (nearest_even_bounds y) as Hby.
  destruct (Z.eq_dec (Qfloor x) (Qfloor y)) as [Heq | Hne]; [ | lia ].
  clear Hbx Hby Hf. unfold nearest_even. rewrite <- Heq.
  destruct (Qcompare_spec (x - inject_Z (Qfloor x)) (1 # 2)) as [Ex | Ex | Ex];
    destruct (Qcompare_spec (y - inject_Z (Qfloor x)) (1 # 2))
      as [Ey | Ey | Ey];
    try (destruct (Z.even (Qfloor x)); lia);
    exfalso; lra.
Qed.

Lemma nearest_even_nonneg (x : Q) : (0 <= x)%Q -> (0 <= nearest_even x)%Z.
Proof.
  intros H. apply (nearest_even_monotone 0 x H).
Qed.

Lemma nearest_even_nonpos (x : Q) : (x <= 0)%Q -> (nearest_even x <= 0)%Z.
Proof.
  intros H. apply (nearest_even_monotone x 0 H).
Qed.

(** The rounding of the specification names one integer. *)
Lemma round_half_even_unique (x : Q) (q : Z) :
  round_half_even x q -> q = nearest_even x.
Proof.
  intros [Hq Hqe].
  destruct (nearest_even_half_even x) as [Hp Hpe].
  set (p := nearest_even x) in *.
  apply Qabs_Qle_condition in Hq, Hp.
  assert (Hd : (inject_Z q - inject_Z p <= 1)%Q /\
               (inject_Z p - inject_Z q <= 1)%Q) by (split; lra).
  destruct Hd as [Hd1 Hd2].
  assert (Hz1 : (q - p <= 1)%Z).
  { rewrite Zle_Qle. unfold Zminus. rewrite inject_Z_plus, inject_Z_opp.
    change (inject_Z 1) with 1%Q. lra. }
  assert (Hz2 : (p - q <= 1)%Z).
  { rewrite Zle_Qle. unfold Zminus. rewrite inject_Z_plus, inject_Z_opp.
    change (inject_Z 1) with 1%Q. lra. }
  destruct (Z.eq_dec q p) as [ | Hne ]; [ assumption | exfalso ].
  assert (Hcase : (q = p + 1 \/ p = q + 1)%Z) by lia.
  destruct Hcase as [Hc | Hc].
  - assert (Hi : inject_Z q = (inject_Z p + 1)%Q)
      by (rewrite Hc, inject_Z_plus; reflexivity).
    rewrite Hi in *.
    assert (Ex : (x - inject_Z p == 1 # 2)%Q) by lra.
    assert (Ev1 : Z.even q = true).
    { apply Hqe. rewrite Qabs_neg by lra. lra. }
    assert (Ev2 : Z.even p = true).
    { apply Hpe. rewrite Qabs_pos by lra. lra. }
    rewrite Hc, Z.add_1_r, Z.even_succ, <- Z.negb_even, Ev2 in Ev1.
    discriminate.
  - assert (Hi : inject_Z p = (inject_Z q + 1)%Q)
      by (rewrite Hc, inject_Z_plus; reflexivity).
    rewrite Hi in *.
    assert (Ex : (x - inject_Z q == 1 # 2)%Q) by lra.
    assert (Ev1 : Z.even q = true).
    { apply Hqe. rewrite Qabs_pos by lra. lra. }
    assert (Ev2 : Z.even p = true).
    { apply Hpe. rewrite Qabs_neg by lra. lra. }
    rewrite Hc, Z.add_1_r, Z.even_succ, <- Z.negb_even, Ev1 in Ev2.
    discriminate.
Qed.

(** ** Comparing floats *)

Lemma SFcompare_antisym (x y : float) :
  SFcompare y x = option_map CompOpp (SFcompare x y).
Proof.
  destruct x as [sx | sx | | sx mx ex], y as [sy | sy | | sy my ey];
    cbn; try reflexivity;
    try (destruct sx; reflexivity); try (destruct sy; reflexivity);
    try (destruct sx, sy; reflexivity).
  destruct sx, sy; cbn; try reflexivity.
  - rewrite (Z.compare_antisym ex ey).
    destruct (ex ?= ey)%Z; cbn; try reflexivity.
    rewrite (Pos.compare_cont_antisym mx my Eq). reflexivity.
  - rewrite (Z.compare_antisym ex ey).
    destruct (ex ?= ey)%Z; cbn; try reflexivity.
    rewrite (Pos.compare_cont_antisym mx my Eq). reflexivity.
Qed.

Lemma SFcompare_defined (x y : float) :
  is_nan x = false -> is_nan y = false -> exists c, SFcompare x y = Some c.
Proof.
  destruct x, y; cbn; intros Hx Hy; try discriminate; eexists; reflexivity.
Qed.

Lemma float_le_not_gt (a b : float) : float_le a b -> py_gt a b = false.
Proof.
  unfold float_le, py_gt, SFleb, SFltb. rewrite (SFcompare_antisym a b).
  destruct (SFcompare a b) as [[ | | ] | ]; cbn; congruence.
Qed.

Lemma not_gt_float_le (a b : float) :
  is_nan a = false -> is_nan b = false -> py_gt a b = false -> float_le a b.
Proof.
  intros Ha Hb. destruct (SFcompare_defined a b Ha Hb) as [c Hc].
  unfold float_le, py_gt, SFleb, SFltb. rewrite (SFcompare_antisym a b), Hc.
  destruct c; cbn; congruence.
Qed.

Lemma float_lt_py_gt (a b : float) : float_lt b a <-> py_gt a b = true.
Proof. reflexivity. Qed.

Lemma float_lt_not_zero (z a : float) :
  is_zero z = true -> float_lt z a -> is_zero a = false.
Proof.
  unfold float_lt, SFltb.
  destruct z; try discriminate. destruct a; cbn; congruence.
Qed.

Lemma float_lt_zero_not_zero (z a : float) :
  is_zero z = true -> float_lt a z -> is_zero a = false.
Proof.
  unfold float_lt, SFltb.
  destruct z; try discriminate. destruct a; cbn; congruence.
Qed.

(** ** Signs of products and quotients *)

Lemma float_value_sign (f : float) :
  (is_negative f = false -> (0 <= float_value f)%Q) /\
  (is_positive f = false -> (float_value f <= 0)%Q).
Proof.
  destruct f as [s | s | | s m e]; cbn [float_value is_negative is_positive];
    try (split; intros _; apply Qle_refl).
  assert (Hpow : forall p, (0 < 2 ^ Zpos p)%Z)
    by (intros p; apply Z.pow_pos_nonneg; lia).
  destruct s; (split; intros H); try discriminate; cbn [cond_Zopp];
    destruct e as [ | p | p ].
  - change 0%Q with (inject_Z 0). rewrite <- Zle_Qle. lia.
  - change 0%Q with (inject_Z 0). rewrite <- Zle_Qle.
    specialize (Hpow p). nia.
  - unfold Qle. cbn [Qnum Qden]. lia.
  - change 0%Q with (inject_Z 0). rewrite <- Zle_Qle. lia.
  - change 0%Q with (inject_Z 0). rewrite <- Zle_Qle.
    specialize (Hpow p). nia.
  - unfold Qle. cbn [Qnum Qden]. lia.
Qed.

Lemma binary_round_aux_sign (s : bool) (m e : Z) (l : location) :
  match binary_round_aux prec emax s m e l with
  | S754_finite s' _ _ => s' = s
  | _ => True
  end.
Proof.
  unfold binary_round_aux.
  destruct (shr_fexp prec emax m e l) as [mrs' e'].
  destruct (shr_fexp prec emax _ e' loc_Exact) as [mrs'' e''].
  destruct (shr_m mrs''); [ exact I | | exact I ].
  destruct (e'' <=? emax - prec)%Z; [ reflexivity | exact I ].
Qed.

Lemma SFmul_finite (x y : float) (s : bool) (m : positive) (e : Z) :
  SFmul prec emax x y = S754_finite s m e ->
  exists sx mx ex sy my ey,
    x = S754_finite sx mx ex /\ y = S754_finite sy my ey /\ s = xorb sx sy.
Proof.
  destruct x as [sx | sx | | sx mx ex], y as [sy | sy | | sy my ey];
    cbn [SFmul]; intros H; try discriminate.
  pose proof (binary_round_aux_sign (xorb sx sy) (Zpos (mx * my)) (ex + ey)
                loc_Exact) as Hs.
  rewrite H in Hs. repeat eexists. assumption.
Qed.

Lemma SFdiv_finite (x y : float) (s : bool) (m : positive) (e : Z) :
  SFdiv prec emax x y = S754_finite s m e ->
  exists sx mx ex sy my ey,
    x = S754_finite sx mx ex /\ y = S754_finite sy my ey /\ s = xorb sx sy.
Proof.
  destruct x as [sx | sx | | sx mx ex], y as [sy | sy | | sy my ey];
    cbn [SFdiv]; intros H; try discriminate.
  destruct (SFdiv_core_binary prec emax (Zpos mx) ex (Zpos my) ey)
    as [[mz ez] lz].
  pose proof (binary_round_aux_sign (xorb sx sy) mz ez lz) as Hs.
  rewrite H in Hs. repeat eexists. assumption.
Qed.

Lemma SFmul_not_nan (x y : float) :
  is_nan (SFmul prec emax x y) = false ->
  is_nan x = false /\ is_nan y = false.
Proof.
  intros H. destruct x, y; try (split; reflexivity); cbn in H; discriminate.
Qed.

Lemma SFdiv_not_nan (x y : float) :
  is_nan (SFdiv prec emax x y) = false ->
  is_nan x = false /\ is_nan y = false.
Proof.
  intros H. destruct x, y; try (split; reflexivity); cbn in H; discriminate.
Qed.

Lemma py_round_returns (x : float) (q : Z) :
  py_round x = inr q <->
  is_finite x = true /\ q = nearest_even (float_value x).
Proof.
  destruct x; cbn [py_round is_finite]; split;
    try (intros H; discriminate);
    try (intros [H _]; discriminate);
    try (intros H; injection H as <-; split; reflexivity);
    intros [_ ->]; reflexivity.
Qed.

Lemma is_finite_not_nan (x : float) : is_finite x = true -> is_nan x = false.
Proof. destruct x; cbn; congruence. Qed.

(** ** The methods, run *)

Lemma position_sizing_run (w : World) (self : MLTrader) :
  position_sizing w self =
  if is_zero (get_last_price w (symbol self))
  then mkOutcome (inl ZeroDivisionError) self []
  else
    match py_round (sizing_ratio w self) with
    | inl e => mkOutcome (inl e) self []
    | inr quantity =>
        mkOutcome
          (inr (get_cash w, get_last_price w (symbol self), quantity))
          self []
    end.
Proof.
  unfold position_sizing, bind, ask, get_self, lift, py_div, sizing_ratio.
  cbn [result self_after emitted].
  destruct (is_zero (get_last_price w (symbol self)));
    cbn [raise ret result self_after emitted app]; [ reflexivity | ].
  destruct (py_round _); reflexivity.
Qed.

Lemma sized_iff (w : World) (self : MLTrader) (q : Z) :
  sized w self = Some q <->
  is_zero (get_last_price w (symbol self)) = false /\
  py_round (sizing_ratio w self) = inr q.
Proof.
  unfold sized. rewrite position_sizing_run.
  destruct (is_zero (get_last_price w (symbol self))); cbn [result].
  - split; [ discriminate | intros [H _]; discriminate ].
  - destruct (py_round (sizing_ratio w self)) as [e | q']; cbn [result].
    + split; [ discriminate | intros [_ H]; discriminate ].
    + split.
      * intros H. injection H as ->. split; reflexivity.
      * intros [_ H]. injection H as ->. reflexivity.
Qed.

Lemma position_sizing_returns (w : World) (self : MLTrader) (q : Z) :
  sized w self = Some q ->
  position_sizing w self =
  mkOutcome (inr (get_cash w, get_last_price w (symbol self), q)) self [].
Proof.
  intros H. apply sized_iff in H. destruct H as [Hz Hr].
  rewrite position_sizing_run, Hz, Hr. reflexivity.
Qed.

Lemma position_sizing_raises (w : World) (self : MLTrader) :
  sized w self = None ->
  exists e, position_sizing w self = mkOutcome (inl e) self [].
Proof.
  unfold sized. rewrite position_sizing_run.
  destruct (is_zero (get_last_price w (symbol self)));
    [ intros _; eexists; reflexivity | ].
  destruct (py_round (sizing_ratio w self)) as [e | q]; cbn [result];
    [ intros _; eexists; reflexivity | discriminate ].
Qed.

(** A sizing that returns has read neither a NaN cash nor a NaN price, and
    has rounded a finite quotient. *)
Lemma sized_readings (w : World) (self : MLTrader) (q : Z) :
  sized w self = Some q ->
  is_nan (get_cash w) = false /\
  is_nan (get_last_price w (symbol self)) = false /\
  is_finite (sizing_ratio w self) = true /\
  q = nearest_even (float_value (sizing_ratio w self)).
Proof.
  intros H. apply sized_iff in H. destruct H as [_ Hr].
  apply py_round_returns in Hr. destruct Hr as [Hfin Hq].
  pose proof (is_finite_not_nan _ Hfin) as Hn.
  unfold sizing_ratio in Hn. apply SFdiv_not_nan in Hn.
  destruct Hn as [Hprod Hprice].
  unfold py_mul in Hprod. apply SFmul_not_nan in Hprod.
  destruct Hprod as [Hcash _].
  repeat split; assumption.
Qed.

Lemma get_sentiment_run (w : World) (self : MLTrader) :
  get_sentiment w self = mkOutcome (inr (sentiment_of w self)) self [].
Proof.
  unfold get_sentiment, sentiment_of, get_dates, bind, ask, get_self.
  cbn [result self_after emitted ret app].
  destruct (estimate_sentiment w _); reflexivity.
Qed.

Lemma on_trading_iteration_raises (w : World) (self : MLTrader) (e : Exn) :
  position_sizing w self = mkOutcome (inl e) self [] ->
  on_trading_iteration w self = mkOutcome (inl e) self [].
Proof.
  intros Hp. unfold on_trading_iteration, bind.
  rewrite Hp. reflexivity.
Qed.

Lemma on_trading_iteration_returns (w : World) (self : MLTrader) (q : Z) :
  sized w self = Some q ->
  on_trading_iteration w self =
  let cash := get_cash w in
  let last_price := get_last_price w (symbol self) in
  let probability := fst (sentiment_of w self) in
  let sentiment := snd (sentiment_of w self) in
  if py_gt cash last_price then
    if (sentiment =? "positive") && py_gt probability (decimal 999 3) then
      mkOutcome (inr tt) (with_last_trade self (Some "buy"))
        ((if py_eq (last_trade self) "sell" then [SellAll] else []) ++
         [SubmitOrder
            (mkOrder (symbol self) q "buy" "bracket"
               (py_mul last_price (decimal 120 2))
               (py_mul last_price (decimal 95 2)))])
    else mkOutcome (inr tt) self []
  else if (sentiment =? "negative") && py_gt probability (decimal 999 3) then
    if py_eq (last_trade self) "buy" then
      mkOutcome (inr tt) (with_last_trade self (Some "buy"))
        [SellAll;
         SubmitOrder
           (mkOrder (symbol self) q "sell" "bracket"
              (py_mul last_price (decimal 8 1))
              (py_mul last_price (decimal 105 2)))]
    else mkOutcome (inr tt) self []
  else mkOutcome (inr tt) self [].
Proof.
  intros Hq. unfold on_trading_iteration, bind.
  rewrite (position_sizing_returns w self q Hq).
  cbn [result self_after emitted].
  rewrite get_sentiment_run. cbn [result self_after emitted].
  destruct (sentiment_of w self) as [probability sentiment]. cbn [fst snd].
  destruct (py_gt (get_cash w) (get_last_price w (symbol self))).
  - destruct ((sentiment =? "positive") && py_gt probability (decimal 999 3));
      [ | reflexivity ].
    unfold get_self, sell_all, submit_order, set_last_trade, create_order, ret.
    cbn [result self_after emitted app].
    destruct (py_eq (last_trade self) "sell"); reflexivity.
  - destruct ((sentiment =? "negative") && py_gt probability (decimal 999 3));
      [ | reflexivity ].
    unfold get_self, sell_all, submit_order, set_last_trade, create_order, ret.
    cbn [result self_after emitted app].
    destruct (py_eq (last_trade self) "buy"); reflexivity.
Qed.

Lemma gate_open (probability : float) (sentiment label : string) :
  sentiment = label -> float_lt (decimal 999 3) probability ->
  (sentiment =? label) && py_gt probability (decimal 999 3) = true.
Proof.
  intros Hs Hp. rewrite Hs, String.eqb_refl. exact Hp.
Qed.

Lemma gate_closed (probability : float) (sentiment label : string) :
  float_le probability (decimal 999 3) ->
  (sentiment =? label) && py_gt probability (decimal 999 3) = false.
Proof.
  intros Hp. apply andb_false_intro2. apply float_le_not_gt. assumption.
Qed.

Lemma orders_app (evs1 evs2 : list Event) :
  orders (evs1 ++ evs2) = (orders evs1 ++ orders evs2)%list.
Proof.
  induction evs1 as [ | [ | o ] evs1 IH ]; cbn; [ | | rewrite IH ]; auto.
Qed.

(** What an iteration can emit: nothing, a buy (after a liquidation if
    [last_trade] was ["sell"]) with [cash > last_price], or a liquidation
    and a sell with [cash <= last_price] and [last_trade] being ["buy"];
    [last_trade] is ["buy"] after an order and untouched otherwise. *)
Lemma on_trading_iteration_cases (w : World) (self : MLTrader) :
  let cash := get_cash w in
  let last_price := get_last_price w (symbol self) in
  let o := on_trading_iteration w self in
  (emitted o = [] /\ self_after o = self)
  \/
  (exists order,
     emitted o =
       ((if py_eq (last_trade self) "sell" then [SellAll] else []) ++
        [SubmitOrder order])%list /\
     side order = "buy" /\ float_lt last_price cash /\
     self_after o = with_last_trade self (Some "buy"))
  \/
  (exists order,
     emitted o = [SellAll; SubmitOrder order] /\
     side order = "sell" /\ float_le cash last_price /\
     last_trade self = Some "buy" /\
     self_after o = with_last_trade self (Some "buy")).
Proof.
  intros cash last_price o. subst o.
  destruct (sized w self) as [q | ] eqn:Hq.
  - destruct (sized_readings w self q Hq) as [Hc [Hp _]].
    rewrite (on_trading_iteration_returns w self q Hq).
    cbv zeta. fold cash last_price in Hc, Hp |- *.
    destruct (py_gt cash last_price) eqn:Hgt.
    + destruct (_ && _); [ | left; split; reflexivity ].
      right. left. eexists. cbn [emitted self_after].
      split; [ reflexivity | split; [ reflexivity | split ] ].
      * exact Hgt.
      * reflexivity.
    + destruct (_ && _); [ | left; split; reflexivity ].
      destruct (last_trade self) as [t | ] eqn:Hlast; cbn [py_eq];
        [ | left; split; reflexivity ].
      destruct (String.eqb_spec t "buy") as [Ht | Ht];
        [ | left; split; reflexivity ].
      right. right. eexists. cbn [emitted self_after].
      split; [ reflexivity | split; [ reflexivity | split; [ | split ] ] ].
      * apply not_gt_float_le; assumption.
      * rewrite Ht. reflexivity.
      * reflexivity.
  - destruct (position_sizing_raises w self Hq) as [e He].
    rewrite (on_trading_iteration_raises w self e He).
    left. split; reflexivity.
Qed.

(** The one order an iteration can submit, spelled out. *)
Lemma submitted_order_form (w : World) (self : MLTrader) (order : Order) :
  let cash := get_cash w in
  let last_price := get_last_price w (symbol self) in
  In order (orders (emitted (on_trading_iteration w self))) ->
  sized w self = Some (quantity order) /\
  ((order = mkOrder (symbol self) (quantity order) "buy" "bracket"
              (py_mul last_price (decimal 120 2))
              (py_mul last_price (decimal 95 2)) /\
    float_lt last_price cash)
   \/
   (order = mkOrder (symbol self) (quantity order) "sell" "bracket"
              (py_mul last_price (decimal 8 1))
              (py_mul last_price (decimal 105 2)) /\
    float_le cash last_price /\
    last_trade self = Some "buy" /\
    emitted (on_trading_iteration w self) = [SellAll; SubmitOrder order])).
Proof.
  intros cash last_price Hin.
  destruct (sized w self) as [q | ] eqn:Hq.
  - destruct (sized_readings w self q Hq) as [Hc [Hp _]].
    rewrite (on_trading_iteration_returns w self q Hq) in *.
    cbv zeta in *. fold cash last_price in Hc, Hp, Hin |- *.
    destruct (py_gt cash last_price) eqn:Hgt.
    + destruct (_ && _); [ | contradiction ].
      cbn [emitted] in Hin. rewrite orders_app in Hin.
      destruct (py_eq (last_trade self) "sell"); cbn in Hin;
        destruct Hin as [<- | []]; cbn [quantity];
        (split; [ reflexivity | left; split; [ reflexivity | exact Hgt ] ]).
    + destruct (_ && _); [ | contradiction ].
      destruct (last_trade self) as [t | ] eqn:Hlast; cbn [py_eq] in *;
        [ | contradiction ].
      destruct (String.eqb_spec t "buy") as [Ht | Ht]; [ | contradiction ].
      cbn in Hin. destruct Hin as [<- | []]. cbn [quantity].
      split; [ reflexivity | right ].
      split; [ reflexivity | split; [ | split ] ].
      * apply not_gt_float_le; assumption.
      * rewrite Ht. reflexivity.
      * reflexivity.
  - destruct (position_sizing_raises w self Hq) as [e He].
    rewrite (on_trading_iteration_raises w self e He) in Hin. contradiction.
Qed.

(** ** Position sizing *)

Lemma float_le_zero_sign (x : float) :
  float_le (float_of_Z 0) x -> is_negative x = false.
Proof.
  unfold float_le, SFleb. destruct x as [s | s | | s m e]; cbn;
    try reflexivity. destruct s; [ discriminate | reflexivity ].
Qed.

Lemma float_lt_zero_sign (x : float) :
  float_lt (float_of_Z 0) x -> is_negative x = false /\ is_zero x = false.
Proof.
  unfold float_lt, SFltb. destruct x as [s | s | | s m e]; cbn;
    try discriminate; try (split; reflexivity).
  destruct s; [ discriminate | split; reflexivity ].
Qed.

Lemma float_le_zero_cases (x : float) :
  float_le x (float_of_Z 0) ->
  is_zero x = true \/ (float_lt x (float_of_Z 0) /\ is_positive x = false).
Proof.
  unfold float_le, float_lt, SFleb, SFltb.
  destruct x as [s | s | | s m e]; cbn; try discriminate.
  - left. reflexivity.
  - destruct s; [ right; split; reflexivity | discriminate ].
  - destruct s; [ right; split; reflexivity | discriminate ].
Qed.

(** The sign of the quotient that is rounded. *)
Lemma sizing_ratio_sign (w : World) (self : MLTrader) :
  is_negative (get_cash w) = false ->
  is_negative (cash_at_risk self) = false ->
  (is_negative (get_last_price w (symbol self)) = false ->
   is_negative (sizing_ratio w self) = false) /\
  (is_positive (get_last_price w (symbol self)) = false ->
   is_positive (sizing_ratio w self) = false).
Proof.
  intros Hc Hr. unfold sizing_ratio, py_mul.
  destruct (SFdiv prec emax _ _) as [s | s | | s m e] eqn:E;
    try (split; reflexivity).
  apply SFdiv_finite in E.
  destruct E as (sx & mx & ex & sy & my & ey & Eprod & Eprice & Es).
  apply SFmul_finite in Eprod.
  destruct Eprod as (sc & mc & ec & sr & mr & er & Ecash & Ecar & Esx).
  rewrite Eprice, Ecash in *. rewrite Ecar in Hr. cbn in Hc, Hr |- *.
  destruct sc; [ discriminate | ]. destruct sr; [ discriminate | ].
  subst sx s. split; intros H; destruct sy; cbn; congruence.
Qed.

(** C6, as stated, fails: the quotient can overflow.  With cash [2^1023],
    risk 0.5 and price 0.25, all within the claim's ranges,
    [cash * cash_at_risk / last_price] is infinite and [round] raises. *)
Lemma position_sizing_overflows :
  let self := initialize "SPY" (decimal 5 1) in
  let w := world_of (float_of_Z (2 ^ 1023)) (decimal 25 2) (float_of_Z 0)
             "neutral" in
  float_le (float_of_Z 0) (get_cash w) /\
  float_lt (float_of_Z 0) (get_last_price w (symbol self)) /\
  float_lt (float_of_Z 0) (cash_at_risk self) /\
  float_le (cash_at_risk self) (float_of_Z 1) /\
  sizing_ratio w self = S754_infinity false /\
  position_sizing w self = mkOutcome (inl OverflowError) self [].
Proof.
  vm_compute. repeat split.
Qed.

(** C6, amended.  With [cash >= 0], [last_price > 0] and [cash_at_risk] in
    (0,1], whenever the float [cash * cash_at_risk / last_price] is finite,
    [position_sizing] returns, without any effect, the cash, the price and
    the quantity [round(cash * cash_at_risk / last_price)]; that quantity is
    the round-half-to-even integer of the float quotient and is not
    negative. *)
Theorem position_sizing_quantity (w : World) (self : MLTrader) :
  let cash := get_cash w in
  let last_price := get_last_price w (symbol self) in
  let quantity := nearest_even (float_value (sizing_ratio w self)) in
  float_le (float_of_Z 0) cash ->
  float_lt (float_of_Z 0) last_price ->
  float_lt (float_of_Z 0) (cash_at_risk self) ->
  float_le (cash_at_risk self) (float_of_Z 1) ->
  is_finite (sizing_ratio w self) = true ->
  position_sizing w self = mkOutcome (inr (cash, last_price, quantity)) self []
  /\ round_half_even (float_value (sizing_ratio w self)) quantity
  /\ (0 <= quantity)%Z.
Proof.
  intros cash last_price quantity Hcash Hprice Hcar0 Hcar1 Hfin.
  apply float_le_zero_sign in Hcash.
  apply float_lt_zero_sign in Hprice. destruct Hprice as [Hpn Hpz].
  apply float_lt_zero_sign in Hcar0. destruct Hcar0 as [Hrn _].
  split; [ | split ].
  - apply position_sizing_returns. apply sized_iff.
    split; [ assumption | ]. apply py_round_returns.
    split; [ assumption | reflexivity ].
  - apply nearest_even_half_even.
  - apply nearest_even_nonneg. apply float_value_sign.
    apply (sizing_ratio_sign w self); assumption.
Qed.

(** The sizing of Example 1: cash 10000, price 100, risk 0.5 give 50. *)
Lemma position_sizing_quantity_example :
  let w := world_of (float_of_Z 10000) (float_of_Z 100) (float_of_Z 0)
             "neutral" in
  let self := initialize "SPY" (decimal 5 1) in
  position_sizing w self =
    mkOutcome (inr (float_of_Z 10000, float_of_Z 100, 50%Z)) self []
  /\ round_half_even (float_value (sizing_ratio w self)) 50
  /\ (0 <= 50)%Z.
Proof.
  apply (position_sizing_quantity
           (world_of (float_of_Z 10000) (float_of_Z 100) (float_of_Z 0)
              "neutral")
           (initialize "SPY" (decimal 5 1)));
    vm_compute; reflexivity.
Defined.

(** C5, as stated, fails: nothing guards the division.  With cash 10000
    and price 0, [position_sizing] raises the division error itself; with
    price -100 it returns the quantity -50. *)
Lemma position_sizing_unguarded :
  let self := initialize "SPY" (decimal 5 1) in
  let w0 := world_of (float_of_Z 10000) (float_of_Z 0) (float_of_Z 0)
              "neutral" in
  let wneg := world_of (float_of_Z 10000) (float_of_Z (-100)) (float_of_Z 0)
                "neutral" in
  float_le (float_of_Z 0) (get_cash w0) /\
  float_le (get_last_price w0 (symbol self)) (float_of_Z 0) /\
  float_le (float_of_Z 0) (get_cash wneg) /\
  float_le (get_last_price wneg (symbol self)) (float_of_Z 0) /\
  position_sizing w0 self = mkOutcome (inl ZeroDivisionError) self [] /\
  position_sizing wneg self =
    mkOutcome (inr (float_of_Z 10000, float_of_Z (-100), (-50)%Z)) self [].
Proof.
  vm_compute. repeat split.
Qed.

(** C5, amended.  With [cash >= 0] and [last_price <= 0]: at a zero price
    [position_sizing] raises [ZeroDivisionError] and has no effect; at a
    negative price it rounds the float [cash * cash_at_risk / last_price]
    unguarded: it returns that quantity, which is not positive when
    [cash_at_risk >= 0], or raises from [round] when the quotient is not
    finite, again without effect. *)
Theorem position_sizing_nonpositive_price (w : World) (self : MLTrader) :
  let cash := get_cash w in
  let last_price := get_last_price w (symbol self) in
  float_le (float_of_Z 0) cash ->
  float_le last_price (float_of_Z 0) ->
  (is_zero last_price = true /\
   position_sizing w self = mkOutcome (inl ZeroDivisionError) self [])
  \/
  (float_lt last_price (float_of_Z 0) /\
   match py_round (sizing_ratio w self) with
   | inr quantity =>
       position_sizing w self =
         mkOutcome (inr (cash, last_price, quantity)) self [] /\
       (float_le (float_of_Z 0) (cash_at_risk self) -> (quantity <= 0)%Z)
   | inl e =>
       position_sizing w self = mkOutcome (inl e) self [] /\
       is_finite (sizing_ratio w self) = false
   end).
Proof.
  intros cash last_price Hcash Hprice.
  apply float_le_zero_sign in Hcash.
  destruct (float_le_zero_cases _ Hprice) as [Hz | [Hlt Hpos]].
  - left. split; [ assumption | ].
    rewrite position_sizing_run. fold last_price. rewrite Hz. reflexivity.
  - right. split; [ assumption | ].
    assert (Hnz : is_zero last_price = false)
      by (apply (float_lt_zero_not_zero (float_of_Z 0)); [ reflexivity | assumption ]).
    rewrite position_sizing_run. fold last_price. rewrite Hnz.
    destruct (py_round (sizing_ratio w self)) as [e | q] eqn:Hr.
    + split; [ reflexivity | ].
      destruct (sizing_ratio w self); cbn in Hr |- *;
        try reflexivity; discriminate.
    + split; [ reflexivity | ].
      intros Hcar. apply float_le_zero_sign in Hcar.
      apply py_round_returns in Hr. destruct Hr as [_ ->].
      apply nearest_even_nonpos. apply float_value_sign.
      apply (sizing_ratio_sign w self); assumption.
Qed.

(** At cash 10000, risk 0.5 and price -100 the quantity is -50. *)
Lemma position_sizing_nonpositive_price_example :
  let self := initialize "SPY" (decimal 5 1) in
  let w := world_of (float_of_Z 10000) (float_of_Z (-100)) (float_of_Z 0)
             "neutral" in
  (is_zero (float_of_Z (-100)) = true /\
   position_sizing w self = mkOutcome (inl ZeroDivisionError) self [])
  \/
  (float_lt (float_of_Z (-100)) (float_of_Z 0) /\
   (position_sizing w self =
      mkOutcome (inr (float_of_Z 10000, float_of_Z (-100), (-50)%Z)) self []
    /\
    (float_le (float_of_Z 0) (decimal 5 1) -> (-50 <= 0)%Z))).
Proof.
  apply (position_sizing_nonpositive_price
           (world_of (float_of_Z 10000) (float_of_Z (-100)) (float_of_Z 0)
              "neutral")
           (initialize "SPY" (decimal 5 1)));
    vm_compute; reflexivity.
Defined.

(** ** The trading iteration *)

(** C2, as stated, fails: position sizing comes first and can raise.  With
    cash [2^1023] above the price 0.25, risk 0.5 and ("positive", 0.9995),
    the quotient is infinite, [round] raises [OverflowError] and no order
    is submitted. *)
Lemma buy_branch_overflows :
  let self := initialize "SPY" (decimal 5 1) in
  let w := world_of (float_of_Z (2 ^ 1023)) (decimal 25 2) (decimal 9995 4)
             "positive" in
  float_lt (get_last_price w (symbol self)) (get_cash w) /\
  float_lt (float_of_Z 0) (get_last_price w (symbol self)) /\
  snd (sentiment_of w self) = "positive" /\
  float_lt (decimal 999 3) (fst (sentiment_of w self)) /\
  on_trading_iteration w self = mkOutcome (inl OverflowError) self [] /\
  orders (emitted (on_trading_iteration w self)) = [].
Proof.
  vm_compute. repeat split.
Qed.

(** C2, amended.  When position sizing returns a quantity (the price is
    not zero and the float [cash * cash_at_risk / last_price] is finite),
    [cash > last_price], the sentiment is ["positive"] and its probability
    exceeds 0.999, the iteration returns having submitted exactly one
    order: a bracket buy of that quantity,
    [round(cash * cash_at_risk / last_price)], with take-profit
    [last_price * 1.20] and stop-loss [last_price * 0.95], preceded by a
    liquidation only if [last_trade] was ["sell"]; afterwards [last_trade]
    is ["buy"]. *)
Theorem buy_branch_emits_buy (w : World) (self : MLTrader) (q : Z) :
  let cash := get_cash w in
  let last_price := get_last_price w (symbol self) in
  let order :=
    mkOrder (symbol self) q "buy" "bracket"
      (py_mul last_price (decimal 120 2))
      (py_mul last_price (decimal 95 2)) in
  let o := on_trading_iteration w self in
  sized w self = Some q ->
  float_lt last_price cash ->
  snd (sentiment_of w self) = "positive" ->
  float_lt (decimal 999 3) (fst (sentiment_of w self)) ->
  py_round (sizing_ratio w self) = inr q /\
  result o = inr tt /\
  emitted o =
    ((if py_eq (last_trade self) "sell" then [SellAll] else []) ++
     [SubmitOrder order])%list /\
  orders (emitted o) = [order] /\
  last_trade (self_after o) = Some "buy".
Proof.
  intros cash last_price order o Hq Hgt Hlabel Hprob.
  split; [ apply (sized_iff w self q); assumption | ].
  subst o. rewrite (on_trading_iteration_returns w self q Hq).
  cbv zeta. fold cash last_price.
  rewrite (proj1 (float_lt_py_gt cash last_price) Hgt).
  rewrite (gate_open _ _ "positive" Hlabel Hprob).
  cbn [result emitted self_after with_last_trade last_trade].
  repeat split.
  destruct (py_eq (last_trade self) "sell"); reflexivity.
Qed.

(** Example 2: cash 10000, price 100, ("positive", 0.9995), no trade
    before: one buy of 50 with take-profit 120 and stop-loss 95. *)
Lemma buy_branch_emits_buy_example :
  let self := initialize "SPY" (decimal 5 1) in
  let w := world_of (float_of_Z 10000) (float_of_Z 100) (decimal 9995 4)
             "positive" in
  let o := on_trading_iteration w self in
  let order :=
    mkOrder "SPY" 50 "buy" "bracket"
      (py_mul (float_of_Z 100) (decimal 120 2))
      (py_mul (float_of_Z 100) (decimal 95 2)) in
  (py_round (sizing_ratio w self) = inr 50%Z /\
   result o = inr tt /\
   emitted o = [SubmitOrder order] /\
   orders (emitted o) = [order] /\
   last_trade (self_after o) = Some "buy") /\
  take_profit_price order = float_of_Z 120 /\
  stop_loss_price order = float_of_Z 95.
Proof.
  split.
  - apply (buy_branch_emits_buy
             (world_of (float_of_Z 10000) (float_of_Z 100) (decimal 9995 4)
                "positive")
             (initialize "SPY" (decimal 5 1)) 50);
      vm_compute; reflexivity.
  - vm_compute. split; reflexivity.
Defined.

(** C1, as stated, fails: with cash 50, price 100, ("negative", 0.9996)
    and no trade before ([last_trade] is [None]) the iteration submits
    nothing. *)
Lemma sell_branch_silent_without_buy :
  let self := initialize "SPY" (decimal 5 1) in
  let w := world_of (float_of_Z 50) (float_of_Z 100) (decimal 9996 4)
             "negative" in
  float_le (get_cash w) (get_last_price w (symbol self)) /\
  snd (sentiment_of w self) = "negative" /\
  float_lt (decimal 999 3) (fst (sentiment_of w self)) /\
  last_trade self = None /\
  on_trading_iteration w self = mkOutcome (inr tt) self [] /\
  orders (emitted (on_trading_iteration w self)) = [].
Proof.
  vm_compute. repeat split.
Qed.

(** C1, amended.  When position sizing returns a quantity (the price is
    not zero and the float [cash * cash_at_risk / last_price] is finite),
    [cash <= last_price], the sentiment is ["negative"], its probability
    exceeds 0.999 and [last_trade] is ["buy"], the iteration returns having
    liquidated and then submitted one order: a bracket sell of that
    quantity, [round(cash * cash_at_risk / last_price)], with take-profit
    [last_price * 0.8] and stop-loss [last_price * 1.05]. *)
Theorem sell_branch_emits_sell_after_buy (w : World) (self : MLTrader)
    (q : Z) :
  let cash := get_cash w in
  let last_price := get_last_price w (symbol self) in
  let order :=
    mkOrder (symbol self) q "sell" "bracket"
      (py_mul last_price (decimal 8 1))
      (py_mul last_price (decimal 105 2)) in
  let o := on_trading_iteration w self in
  sized w self = Some q ->
  float_le cash last_price ->
  snd (sentiment_of w self) = "negative" ->
  float_lt (decimal 999 3) (fst (sentiment_of w self)) ->
  last_trade self = Some "buy" ->
  py_round (sizing_ratio w self) = inr q /\
  result o = inr tt /\
  emitted o = [SellAll; SubmitOrder order] /\
  orders (emitted o) = [order].
Proof.
  intros cash last_price order o Hq Hle Hlabel Hprob Hlast.
  split; [ apply (sized_iff w self q); assumption | ].
  subst o. rewrite (on_trading_iteration_returns w self q Hq).
  cbv zeta. fold cash last_price.
  rewrite (float_le_not_gt cash last_price Hle).
  rewrite (gate_open _ _ "negative" Hlabel Hprob).
  rewrite Hlast. cbn [py_eq]. rewrite String.eqb_refl.
  cbn [result emitted]. repeat split.
Qed.

(** Example 4 after a buy: cash 50, price 100, ("negative", 0.9996): a
    liquidation, then a sell of 0 with take-profit 80 and stop-loss 105. *)
Lemma sell_branch_emits_sell_after_buy_example :
  let self := mkMLTrader "SPY" "24h" (Some "buy") (decimal 5 1) in
  let w := world_of (float_of_Z 50) (float_of_Z 100) (decimal 9996 4)
             "negative" in
  let o := on_trading_iteration w self in
  let order :=
    mkOrder "SPY" 0 "sell" "bracket"
      (py_mul (float_of_Z 100) (decimal 8 1))
      (py_mul (float_of_Z 100) (decimal 105 2)) in
  (py_round (sizing_ratio w self) = inr 0%Z /\
   result o = inr tt /\
   emitted o = [SellAll; SubmitOrder order] /\
   orders (emitted o) = [order]) /\
  take_profit_price order = float_of_Z 80 /\
  stop_loss_price order = float_of_Z 105.
Proof.
  split.
  - apply (sell_branch_emits_sell_after_buy
             (world_of (float_of_Z 50) (float_of_Z 100) (decimal 9996 4)
                "negative")
             (mkMLTrader "SPY" "24h" (Some "buy") (decimal 5 1)) 0);
      vm_compute; reflexivity.
  - vm_compute. split; reflexivity.
Defined.

(** C3 fails on the code: from [last_trade = "buy"], cash 50, price 100
    and ("negative", 0.9996), the iteration submits one order, of side
    ["sell"], and leaves [last_trade] at ["buy"]. *)
Lemma sell_order_leaves_last_trade_buy :
  let self := mkMLTrader "SPY" "24h" (Some "buy") (decimal 5 1) in
  let o :=
    on_trading_iteration
      (world_of (float_of_Z 50) (float_of_Z 100) (decimal 9996 4) "negative")
      self in
  map side (orders (emitted o)) = ["sell"] /\
  last_trade (self_after o) = Some "buy" /\
  last_trade (self_after o) <> Some "sell".
Proof.
  vm_compute. repeat split. discriminate.
Qed.

(** C4.  With sentiment ["negative"] and probability above 0.999, an
    iteration that submits a sell order ends with [last_trade = "buy"]. *)
Theorem sell_order_sets_last_trade_buy (w : World) (self : MLTrader) :
  let o := on_trading_iteration w self in
  snd (sentiment_of w self) = "negative" ->
  float_lt (decimal 999 3) (fst (sentiment_of w self)) ->
  (exists order, In (SubmitOrder order) (emitted o) /\ side order = "sell") ->
  last_trade (self_after o) = Some "buy".
Proof.
  intros o _ _ [order [Hin Hside]]. subst o.
  destruct (on_trading_iteration_cases w self)
    as [[He _] | [[b [He [_ [_ Hs]]]] | [s [_ [_ [_ [_ Hs]]]]]]].
  - rewrite He in Hin. contradiction.
  - rewrite Hs. reflexivity.
  - rewrite Hs. reflexivity.
Qed.

(** The sell of Example 4, submitted after a buy. *)
Lemma sell_order_sets_last_trade_buy_example :
  let self := mkMLTrader "SPY" "24h" (Some "buy") (decimal 5 1) in
  let o :=
    on_trading_iteration
      (world_of (float_of_Z 50) (float_of_Z 100) (decimal 9996 4) "negative")
      self in
  last_trade (self_after o) = Some "buy".
Proof.
  apply (sell_order_sets_last_trade_buy
           (world_of (float_of_Z 50) (float_of_Z 100) (decimal 9996 4)
              "negative")
           (mkMLTrader "SPY" "24h" (Some "buy") (decimal 5 1))).
  - reflexivity.
  - vm_compute. reflexivity.
  - eexists. split; [ right; left; vm_compute; reflexivity | reflexivity ].
Defined.

(** C8.  When the sentiment probability is at most 0.999, whatever the
    label, the cash and the price, the iteration submits no order, does
    not liquidate and leaves the strategy object as it was; it returns
    exactly when position sizing does. *)
Theorem low_probability_no_decision (w : World) (self : MLTrader) :
  let o := on_trading_iteration w self in
  float_le (fst (sentiment_of w self)) (decimal 999 3) ->
  emitted o = [] /\
  self_after o = self /\
  (result o = inr tt <-> exists q, sized w self = Some q).
Proof.
  intros o Hprob. subst o.
  destruct (sized w self) as [q | ] eqn:Hq.
  - rewrite (on_trading_iteration_returns w self q Hq). cbv zeta.
    rewrite !gate_closed by assumption.
    destruct (py_gt _ _); repeat split; intros _; eexists; reflexivity.
  - destruct (position_sizing_raises w self Hq) as [e He].
    rewrite (on_trading_iteration_raises w self e He).
    repeat split; [ discriminate | intros [q Hq']; discriminate ].
Qed.

(** Example 5: probability 0.998. *)
Lemma low_probability_no_decision_example :
  let self := initialize "SPY" (decimal 5 1) in
  let w := world_of (float_of_Z 10000) (float_of_Z 100) (decimal 998 3)
             "positive" in
  let o := on_trading_iteration w self in
  emitted o = [] /\
  self_after o = self /\
  (result o = inr tt <-> exists q, sized w self = Some q).
Proof.
  apply (low_probability_no_decision
           (world_of (float_of_Z 10000) (float_of_Z 100) (decimal 998 3)
              "positive")
           (initialize "SPY" (decimal 5 1))).
  vm_compute. reflexivity.
Defined.

(** C9.  An iteration submits at most one order; an order of side ["buy"]
    is submitted only with [cash > last_price], one of side ["sell"] only
    with [cash <= last_price]; and no iteration submits both a buy and a
    sell. *)
Theorem at_most_one_order (w : World) (self : MLTrader) :
  let cash := get_cash w in
  let last_price := get_last_price w (symbol self) in
  let submitted := orders (emitted (on_trading_iteration w self)) in
  (length submitted <= 1)%nat /\
  (forall order, In order submitted ->
     (side order = "buy" \/ side order = "sell") /\
     (side order = "buy" -> float_lt last_price cash) /\
     (side order = "sell" -> float_le cash last_price)) /\
  ~ (exists b s, In b submitted /\ In s submitted /\
                 side b = "buy" /\ side s = "sell").
Proof.
  intros cash last_price submitted. subst submitted.
  destruct (on_trading_iteration_cases w self)
    as [[He _] | [[b [He [Hb [Hgt _]]]] | [s [He [Hs [Hle _]]]]]];
    rewrite He; clear He.
  - cbn. split; [ lia | split ].
    + intros order [].
    + intros [b [s [[] _]]].
  - rewrite orders_app.
    assert (E : orders (if py_eq (last_trade self) "sell"
                        then [SellAll] else []) = [])
      by (destruct (py_eq _ _); reflexivity).
    rewrite E. cbn. split; [ lia | split ].
    + intros order [<- | []]. rewrite Hb.
      split; [ left; reflexivity | split ]; [ intros _; assumption | ].
      discriminate.
    + intros [b' [s' [_ [[<- | []] [_ Hs']]]]]. congruence.
  - cbn. split; [ lia | split ].
    + intros order [<- | []]. rewrite Hs.
      split; [ right; reflexivity | split ]; [ discriminate | ].
      intros _. assumption.
    + intros [b' [s' [[<- | []] [_ [Hb' _]]]]]. congruence.
Qed.

(** ** The run of iterations *)

Lemma never_sold_step (w : World) (self : MLTrader) :
  never_sold self -> never_sold (self_after (on_trading_iteration w self)).
Proof.
  intros Hinv.
  destruct (on_trading_iteration_cases w self)
    as [[_ Hs] | [[b [_ [_ [_ Hs]]]] | [s [_ [_ [_ [_ Hs]]]]]]];
    rewrite Hs; [ assumption | right; reflexivity | right; reflexivity ].
Qed.

Lemma never_sold_run (ws : list World) :
  forall self, never_sold self -> never_sold (run_iterations ws self).
Proof.
  induction ws as [ | w ws IH ]; intros self Hinv; cbn.
  - assumption.
  - apply IH. apply never_sold_step. assumption.
Qed.

(** C10.  From [initialize], after any sequence of iterations,
    [last_trade] is [None] or ["buy"] and never ["sell"]; hence a further
    iteration with [cash > last_price] performs no liquidation. *)
Theorem last_trade_never_sell (sym : string) (car : float)
    (ws : list World) :
  let self := run_iterations ws (initialize sym car) in
  (last_trade self = None \/ last_trade self = Some "buy") /\
  last_trade self <> Some "sell" /\
  (forall w,
     float_lt (get_last_price w (symbol self)) (get_cash w) ->
     liquidations (emitted (on_trading_iteration w self)) = 0%nat).
Proof.
  intros self.
  assert (Hinv : never_sold self).
  { apply never_sold_run. left. reflexivity. }
  split; [ exact Hinv | split ].
  - destruct Hinv as [H | H]; rewrite H; discriminate.
  - intros w Hgt.
    assert (Hguard : py_eq (last_trade self) "sell" = false)
      by (destruct Hinv as [H | H]; rewrite H; reflexivity).
    destruct (on_trading_iteration_cases w self)
      as [[He _] | [[b [He _]] | [s [_ [_ [Hle _]]]]]].
    + rewrite He. reflexivity.
    + rewrite He, Hguard. reflexivity.
    + exfalso. apply float_le_not_gt in Hle.
      unfold float_lt in Hgt. unfold py_gt in Hle. congruence.
Qed.

(** * Further properties of the code *)

(** ** Failure and silence *)


(** X7.  A signal on the wrong side of the cash test is ignored: when the
    sentiment is not ["positive"] with [cash > last_price], or not
    ["negative"] with [cash <= last_price], whatever its probability, the
    iteration makes no broker call and leaves the strategy object as it
    was.  In particular negative news never sells while the cash exceeds
    the price. *)
Theorem mismatched_signal_no_decision (w : World) (self : MLTrader) :
  let cash := get_cash w in
  let last_price := get_last_price w (symbol self) in
  let sentiment := snd (sentiment_of w self) in
  let o := on_trading_iteration w self in
  (float_lt last_price cash -> sentiment <> "positive") ->
  (float_le cash last_price -> sentiment <> "negative") ->
  emitted o = [] /\ self_after o = self.
Proof.
  intros cash last_price sentiment o Hbuy Hsell. subst o.
  destruct (sized w self) as [q | ] eqn:Hq.
  - rewrite (on_trading_iteration_returns w self q Hq). cbv zeta.
    fold cash last_price sentiment.
    destruct (py_gt cash last_price) eqn:Hgt.
    + destruct (String.eqb_spec sentiment "positive") as [E | NE];
        [ destruct (Hbuy Hgt E) | split; reflexivity ].
    + destruct (sized_readings w self q Hq) as [Hc [Hp _]].
      assert (Hn : float_le cash last_price)
        by (apply not_gt_float_le; assumption).
      destruct (String.eqb_spec sentiment "negative") as [E | NE];
        [ destruct (Hsell Hn E) | split; reflexivity ].
  - destruct (position_sizing_raises w self Hq) as [e He].
    rewrite (on_trading_iteration_raises w self e He). split; reflexivity.
Qed.

(** Certain negative news with cash 10000 above the price 100, after a
    buy: nothing is sold. *)
Lemma mismatched_signal_no_decision_example :
  let self := mkMLTrader "SPY" "24h" (Some "buy") (decimal 5 1) in
  let o :=
    on_trading_iteration
      (world_of (float_of_Z 10000) (float_of_Z 100) (float_of_Z 1) "negative")
      self in
  emitted o = [] /\ self_after o = self.
Proof.
  apply (mismatched_signal_no_decision
           (world_of (float_of_Z 10000) (float_of_Z 100) (float_of_Z 1)
              "negative")
           (mkMLTrader "SPY" "24h" (Some "buy") (decimal 5 1))).
  - intros _. cbn. discriminate.
  - intros H. vm_compute in H. discriminate H.
Defined.

(** X8.  A sell order is submitted only from [last_trade = "buy"], with
    [cash <= last_price], and always right after a liquidation. *)
Theorem sell_order_only_after_buy (w : World) (self : MLTrader)
    (order : Order) :
  let o := on_trading_iteration w self in
  In order (orders (emitted o)) ->
  side order = "sell" ->
  last_trade self = Some "buy" /\
  float_le (get_cash w) (get_last_price w (symbol self)) /\
  emitted o = [SellAll; SubmitOrder order].
Proof.
  intros o Hin Hside. subst o.
  destruct (submitted_order_form w self order Hin)
    as [_ [[E _] | [_ [Hle [Hlast He]]]]].
  - rewrite E in Hside. discriminate.
  - repeat split; assumption.
Qed.

(** The sell of cash 50 at price 100 after a buy. *)
Lemma sell_order_only_after_buy_example :
  let w := world_of (float_of_Z 50) (float_of_Z 100) (decimal 9996 4)
             "negative" in
  let self := mkMLTrader "SPY" "24h" (Some "buy") (decimal 5 1) in
  let order :=
    mkOrder "SPY" 0 "sell" "bracket"
      (py_mul (float_of_Z 100) (decimal 8 1))
      (py_mul (float_of_Z 100) (decimal 105 2)) in
  last_trade self = Some "buy" /\
  float_le (get_cash w) (get_last_price w (symbol self)) /\
  emitted (on_trading_iteration w self) = [SellAll; SubmitOrder order].
Proof.
  apply (sell_order_only_after_buy
           (world_of (float_of_Z 50) (float_of_Z 100) (decimal 9996 4)
              "negative")
           (mkMLTrader "SPY" "24h" (Some "buy") (decimal 5 1))
           (mkOrder "SPY" 0 "sell" "bracket"
              (py_mul (float_of_Z 100) (decimal 8 1))
              (py_mul (float_of_Z 100) (decimal 105 2)))).
  - left. vm_compute. reflexivity.
  - reflexivity.
Defined.

(** X9.  An iteration reads the world only through the cash, the last
    price of the strategy's symbol, the date, the news of that symbol from
    three days before the date to the date, and the sentiment of their
    headlines: two worlds that agree on these give the same outcome. *)
Theorem iteration_reads_window_only (w1 w2 : World) (self : MLTrader) :
  let today := get_datetime w1 in
  let news := get_news w1 (symbol self) (today - 3)%Z today in
  get_cash w1 = get_cash w2 ->
  get_last_price w1 (symbol self) = get_last_price w2 (symbol self) ->
  get_datetime w2 = today ->
  get_news w2 (symbol self) (today - 3)%Z today = news ->
  estimate_sentiment w2 (map headline news)
    = estimate_sentiment w1 (map headline news) ->
  on_trading_iteration w1 self = on_trading_iteration w2 self.
Proof.
  intros today news Hcash Hprice Hdate Hnews Hest.
  assert (Hs : sentiment_of w2 self = sentiment_of w1 self).
  { unfold sentiment_of. rewrite Hdate. fold today. rewrite Hnews.
    fold news. assumption. }
  assert (Hp : position_sizing w1 self = position_sizing w2 self).
  { rewrite !position_sizing_run. unfold sizing_ratio.
    rewrite Hcash, Hprice. reflexivity. }
  assert (Hz : sized w1 self = sized w2 self)
    by (unfold sized; rewrite Hp; reflexivity).
  destruct (sized w1 self) as [q | ] eqn:Hq.
  - rewrite (on_trading_iteration_returns w1 self q Hq).
    rewrite (on_trading_iteration_returns w2 self q (eq_sym Hz)).
    rewrite Hs, <- Hcash, <- Hprice. reflexivity.
  - destruct (position_sizing_raises w1 self Hq) as [e He].
    rewrite (on_trading_iteration_raises w1 self e He).
    rewrite Hp in He.
    rewrite (on_trading_iteration_raises w2 self e He). reflexivity.
Qed.

(** News of another symbol, news outside the window and prices of other
    symbols do not matter. *)
Lemma iteration_reads_window_only_example :
  let self := initialize "SPY" (decimal 5 1) in
  let estimate := fun hs : list string =>
    match hs with
    | [] => (float_of_Z 0, "neutral")
    | _ :: _ => (decimal 9995 4, "positive")
    end in
  let w1 :=
    mkWorld (float_of_Z 10000) (fun _ => float_of_Z 100) 10
      (fun _ _ _ => [mkNewsItem "rally"]) estimate in
  let w2 :=
    mkWorld (float_of_Z 10000)
      (fun s => if s =? "SPY" then float_of_Z 100 else float_of_Z 7) 10
      (fun s a b =>
         if (s =? "SPY") && (a =? 7)%Z && (b =? 10)%Z
         then [mkNewsItem "rally"] else [])
      estimate in
  on_trading_iteration w1 self = on_trading_iteration w2 self.
Proof.
  apply (iteration_reads_window_only
           (mkWorld (float_of_Z 10000) (fun _ => float_of_Z 100) 10
              (fun _ _ _ => [mkNewsItem "rally"])
              (fun hs : list string =>
                 match hs with
                 | [] => (float_of_Z 0, "neutral")
                 | _ :: _ => (decimal 9995 4, "positive")
                 end))
           (mkWorld (float_of_Z 10000)
              (fun s => if s =? "SPY" then float_of_Z 100 else float_of_Z 7)
              10
              (fun s a b =>
                 if (s =? "SPY") && (a =? 7)%Z && (b =? 10)%Z
                 then [mkNewsItem "rally"] else [])
              (fun hs : list string =>
                 match hs with
                 | [] => (float_of_Z 0, "neutral")
                 | _ :: _ => (decimal 9995 4, "positive")
                 end))
           (initialize "SPY" (decimal 5 1))); reflexivity.
Defined.

(** ** Runs *)

Lemma liquidations_app (evs1 evs2 : list Event) :
  liquidations (evs1 ++ evs2) = (liquidations evs1 + liquidations evs2)%nat.
Proof.
  induction evs1 as [ | [ | o ] evs1 IH ]; cbn; [ | rewrite IH | ]; auto.
Qed.

Lemma count_side_app (s : string) (os1 os2 : list Order) :
  count_side s (os1 ++ os2) = (count_side s os1 + count_side s os2)%nat.
Proof.
  unfold count_side. rewrite filter_app, length_app. reflexivity.
Qed.

Lemma buy_stays_buy (ws : list World) :
  forall self,
    last_trade self = Some "buy" ->
    last_trade (run_iterations ws self) = Some "buy".
Proof.
  induction ws as [ | w ws IH ]; intros self Hbuy; cbn; [ assumption | ].
  apply IH.
  destruct (on_trading_iteration_cases w self)
    as [[_ Hs] | [[b [_ [_ [_ Hs]]]] | [s [_ [_ [_ [_ Hs]]]]]]];
    rewrite Hs; [ assumption | reflexivity | reflexivity ].
Qed.

(** X11.  A run changes nothing of the strategy object but [last_trade]:
    the symbol, the sleep time and the cash at risk stay as they were. *)
Theorem run_keeps_configuration (ws : list World) (self : MLTrader) :
  symbol (run_iterations ws self) = symbol self /\
  sleeptime (run_iterations ws self) = sleeptime self /\
  cash_at_risk (run_iterations ws self) = cash_at_risk self.
Proof.
  revert self. induction ws as [ | w ws IH ]; intros self; cbn.
  - repeat split.
  - destruct (IH (self_after (on_trading_iteration w self))) as [H1 [H2 H3]].
    rewrite H1, H2, H3.
    destruct (on_trading_iteration_cases w self)
      as [[_ Hs] | [[b [_ [_ [_ Hs]]]] | [s [_ [_ [_ [_ Hs]]]]]]];
      rewrite Hs; repeat split.
Qed.

(** X12.  A run submits at most one order per iteration. *)
Theorem run_orders_bounded (ws : list World) (self : MLTrader) :
  (length (orders (run_trace ws self)) <= length ws)%nat.
Proof.
  revert self. induction ws as [ | w ws IH ]; intros self; cbn.
  - lia.
  - rewrite orders_app, length_app.
    specialize (IH (self_after (on_trading_iteration w self))).
    destruct (on_trading_iteration_cases w self)
      as [[He _] | [[b [He _]] | [s [He _]]]]; rewrite He.
    + cbn. lia.
    + rewrite orders_app.
      destruct (py_eq (last_trade self) "sell"); cbn; lia.
    + cbn. lia.
Qed.

Lemma first_order_from_none (ws : list World) :
  forall self order,
    last_trade self = None ->
    hd_error (orders (run_trace ws self)) = Some order ->
    side order = "buy".
Proof.
  induction ws as [ | w ws IH ]; intros self order Hnone Hhd; cbn in Hhd.
  - discriminate.
  - rewrite orders_app in Hhd.
    destruct (on_trading_iteration_cases w self)
      as [[He Hs] | [[b [He [Hb _]]] | [s [_ [_ [_ [Hlast _]]]]]]].
    + rewrite He, Hs in Hhd. cbn in Hhd. apply (IH self); assumption.
    + rewrite He, Hnone in Hhd. cbn in Hhd. congruence.
    + congruence.
Qed.

(** X13.  Starting from [initialize], the first order a run ever submits
    is a buy: nothing is sold before something was bought. *)
Theorem first_order_is_buy (sym : string) (car : float) (ws : list World)
    (order : Order) :
  hd_error (orders (run_trace ws (initialize sym car))) = Some order ->
  side order = "buy".
Proof.
  apply first_order_from_none. reflexivity.
Qed.

(** Negative news on little cash, then positive news on much cash, then
    negative news on little cash again. *)
Lemma first_order_is_buy_example :
  let ws := [world_of (float_of_Z 50) (float_of_Z 100) (decimal 9996 4)
               "negative";
             world_of (float_of_Z 10000) (float_of_Z 100) (decimal 9995 4)
               "positive";
             world_of (float_of_Z 50) (float_of_Z 100) (decimal 9996 4)
               "negative"] in
  let order :=
    mkOrder "SPY" 50 "buy" "bracket"
      (py_mul (float_of_Z 100) (decimal 120 2))
      (py_mul (float_of_Z 100) (decimal 95 2)) in
  map side (orders (run_trace ws (initialize "SPY" (decimal 5 1))))
    = ["buy"; "sell"] /\
  side order = "buy".
Proof.
  split; [ vm_compute; reflexivity | ].
  apply (first_order_is_buy "SPY" (decimal 5 1)
           [world_of (float_of_Z 50) (float_of_Z 100) (decimal 9996 4)
              "negative";
            world_of (float_of_Z 10000) (float_of_Z 100) (decimal 9995 4)
              "positive";
            world_of (float_of_Z 50) (float_of_Z 100) (decimal 9996 4)
              "negative"]).
  vm_compute. reflexivity.
Defined.

Lemma liquidations_are_sells_from (ws : list World) :
  forall self,
    never_sold self ->
    liquidations (run_trace ws self)
      = count_side "sell" (orders (run_trace ws self)).
Proof.
  induction ws as [ | w ws IH ]; intros self Hinv; cbn [run_trace];
    [ reflexivity | ].
  rewrite liquidations_app, orders_app, count_side_app.
  rewrite (IH _ (never_sold_step w self Hinv)). f_equal.
  assert (Hguard : py_eq (last_trade self) "sell" = false)
    by (destruct Hinv as [H | H]; rewrite H; reflexivity).
  destruct (on_trading_iteration_cases w self)
    as [[He _] | [[b [He [Hb _]]] | [s [He [Hs _]]]]]; rewrite He.
  - reflexivity.
  - rewrite Hguard. unfold count_side. cbn. rewrite Hb. reflexivity.
  - unfold count_side. cbn. rewrite Hs. reflexivity.
Qed.

(** X14.  Starting from [initialize], a run liquidates exactly once per
    sell order: no buy is ever preceded by a liquidation. *)
Theorem liquidations_are_sells (sym : string) (car : float)
    (ws : list World) :
  let trace := run_trace ws (initialize sym car) in
  liquidations trace = count_side "sell" (orders trace).
Proof.
  apply liquidations_are_sells_from. left. reflexivity.
Qed.

Lemma untraded_from (ws : list World) :
  forall self,
    never_sold self ->
    (last_trade (run_iterations ws self) = None <->
     last_trade self = None /\ orders (run_trace ws self) = []).
Proof.
  induction ws as [ | w ws IH ]; intros self Hinv; cbn.
  - split; [ intros H; split; [ assumption | reflexivity ] | intros [H _];
             assumption ].
  - rewrite orders_app.
    destruct (on_trading_iteration_cases w self)
      as [[He Hs] | [[b [He [_ [_ Hs]]]] | [s [He [_ [_ [_ Hs]]]]]]];
      rewrite He, Hs.
    + cbn. apply IH. assumption.
    + rewrite buy_stays_buy by reflexivity. rewrite orders_app.
      split; [ discriminate | ].
      intros [_ H]. destruct (py_eq (last_trade self) "sell"); discriminate.
    + rewrite buy_stays_buy by reflexivity.
      split; [ discriminate | ]. intros [_ H]. discriminate.
Qed.

(** X15.  Starting from [initialize], [last_trade] is [None] after a run
    exactly when the run has submitted no order, and ["buy"] exactly when
    it has submitted one. *)
Theorem untraded_iff_no_order (sym : string) (car : float)
    (ws : list World) :
  let self := run_iterations ws (initialize sym car) in
  let submitted := orders (run_trace ws (initialize sym car)) in
  (last_trade self = None <-> submitted = []) /\
  (last_trade self = Some "buy" <-> submitted <> []).
Proof.
  intros self submitted.
  assert (Hiff : last_trade self = None <-> submitted = []).
  { subst self submitted.
    rewrite (untraded_from ws (initialize sym car))
      by (left; reflexivity).
    cbn. split; [ intros [_ H]; assumption | intros H; split;
                  [ reflexivity | assumption ] ]. }
  split; [ assumption | ].
  assert (Hinv : never_sold self)
    by (apply never_sold_run; left; reflexivity).
  split.
  - intros Hbuy Hnil. apply Hiff in Hnil. congruence.
  - intros Hne. destruct Hinv as [Hnone | Hbuy]; [ | assumption ].
    apply Hiff in Hnone. contradiction.
Qed.
